(** * The template plugin's compiled model

    A shallow embedding of [src/plugins/template/src/compiled_model.cpp]:
    the constructor with its exception translation, [compile_model],
    [set_property], [get_property] and [export_model], followed by the
    properties the specification states about them.

    Conventions.
    - C++ integers are [Z]; every conversion between integer types is
      written out as a reduction modulo the width of the target type.
    - A [std::string] used as a byte buffer and the contents of a stream
      are [list byte]; a [std::string] used as text is [string].
    - What a function may throw is a value of [exception]; code that calls
      collaborators runs in the small monad [eff], which threads the log of
      collaborator calls and carries the exception in flight.
    - Names declared in headers that are not part of the sources at hand
      (property names, the graph type and the passes that work on it) are
      the fields of the classes [PropertyNames] and [Runtime]. *)

From Stdlib Require Import ZArith Lia.
From Stdlib Require Import Strings.Byte.
From Stdlib Require Import Numbers.DecimalString Numbers.DecimalZ Numbers.DecimalPos.
From stdpp Require Import base decidable option list strings gmap.

#[local] Open Scope string_scope.
#[local] Open Scope list_scope.
#[local] Open Scope Z_scope.

(** ** Bytes and the object representation of [std::uint64_t] *)

Module Bytes.

(** [reinterpret_cast<char*>(&dataSize)] exposes the eight bytes of the
    object in the byte order of the host. *)
Inductive endianness := LittleEndian | BigEndian.

Definition byte_of_Z (z : Z) : byte :=
  default x00 (Byte.of_N (Z.to_N (z mod 256))).

Definition Z_of_byte (b : byte) : Z := Z.of_N (Byte.to_N b).

(** The [n] low-order bytes of [v], least significant first. *)
Fixpoint le_bytes (n : nat) (v : Z) : list byte :=
  match n with
  | O => []
  | S n' => byte_of_Z v :: le_bytes n' (Z.shiftr v 8)
  end.

Fixpoint le_value (bs : list byte) : Z :=
  match bs with
  | [] => 0
  | b :: bs' => Z.lor (Z_of_byte b) (Z.shiftl (le_value bs') 8)
  end.

(** [static_cast<std::uint64_t>(x)]. *)
Definition to_uint64 (x : Z) : Z := x mod 2 ^ 64.

(** [sizeof(std::uint64_t)]. *)
Definition sizeof_uint64 : nat := 8.

(** The object representation of a [std::uint64_t] holding [v]. *)
Definition uint64_bytes (e : endianness) (v : Z) : list byte :=
  match e with
  | LittleEndian => le_bytes sizeof_uint64 v
  | BigEndian => rev (le_bytes sizeof_uint64 v)
  end.

(** The value of the [std::uint64_t] whose object representation is [bs]. *)
Definition uint64_value (e : endianness) (bs : list byte) : Z :=
  match e with
  | LittleEndian => le_value bs
  | BigEndian => le_value (rev bs)
  end.

End Bytes.
Export Bytes.

(** ** Streams *)

(** A [std::ostream] is the sequence of bytes put into it so far;
    [write(s, n)] appends the first [n] characters found at [s]. *)
Definition ostream := list byte.

Definition ostream_write (os : ostream) (s : list byte) (n : Z) : ostream :=
  os ++ take (Z.to_nat n) s.

(** [std::string::size()]. *)
Definition size (s : list byte) : Z := Z.of_nat (length s).

(** ** Exceptions *)

(** The classes of exception the code names, as far as the [catch] clauses
    of the constructor tell them apart.  All of them derive from
    [std::exception] and carry the text [what()] returns. *)
Inductive exception_class :=
| InferenceEngine_Exception   (* the legacy exception of called libraries *)
| ov_Exception                (* thrown by OPENVINO_THROW *)
| ov_NotImplemented           (* thrown by OPENVINO_NOT_IMPLEMENTED *)
| NotFound                    (* a read of an option the configuration lacks *)
| DeserializationError        (* an artifact that cannot be read back *)
| other_std_exception.        (* any other class derived from std::exception *)

Inductive exception :=
| std_exception (c : exception_class) (what : string)
| non_std_exception.          (* reached by [catch (...)] only *)

#[global] Instance exception_class_eq_dec : EqDecision exception_class.
Proof. solve_decision. Defined.

#[global] Instance exception_eq_dec : EqDecision exception.
Proof. solve_decision. Defined.

(** [OPENVINO_THROW(args...)] throws [ov::Exception]; [what] is the
    concatenation of the arguments (the macro also records the source
    location, which is left out). *)
Definition OPENVINO_THROW (explanation : string) : exception :=
  std_exception ov_Exception explanation.

Definition OPENVINO_NOT_IMPLEMENTED : exception :=
  std_exception ov_NotImplemented "Not Implemented".

(** ** Values of [ov::Any] and property names *)

Inductive PropertyMutability := RO | RW.

Record PropertyName := mkPropertyName {
  property_name : string;
  mutability : PropertyMutability
}.

#[global] Instance PropertyMutability_eq_dec : EqDecision PropertyMutability.
Proof. solve_decision. Defined.

#[global] Instance PropertyName_eq_dec : EqDecision PropertyName.
Proof. solve_decision. Defined.

Inductive Any :=
| Any_string (s : string)
| Any_bool (b : bool)
| Any_int (z : Z)
| Any_uint32 (n : Z)
| Any_strings (l : list string)
| Any_properties (l : list PropertyName).

(** [unsigned int value = x;] *)
Definition to_unsigned_int (x : Z) : Z := x mod 2 ^ 32.

(** [std::to_string(int)]: decimal digits, with a minus sign when negative. *)
Definition to_string (z : Z) : string := NilZero.string_of_int (Z.to_int z).

(** The names of the properties [get_property] compares [name] with.  They
    are constants of [openvino/runtime/properties.hpp] and
    [ie_plugin_config.hpp]; [EXEC_NETWORK_METRIC_KEY(k)] and [METRIC_KEY(k)]
    denote the same constant.  [streamExecutorConfigKeys] is what
    [IStreamsExecutor::Config{}.get_property(ov::supported_properties.name())]
    lists. *)
Class PropertyNames := {
  ov_model_name : string;
  ov_supported_properties : string;
  ov_execution_devices : string;
  ov_loaded_from_cache : string;
  ov_optimal_number_of_infer_requests : string;
  ov_device_id : string;
  ov_enable_profiling : string;
  METRIC_KEY_SUPPORTED_METRICS : string;
  METRIC_KEY_SUPPORTED_CONFIG_KEYS : string;
  streamExecutorConfigKeys : list string;
  (* further options of the configuration, named by the specification *)
  ov_num_streams : string;
  ov_disable_transformations : string;
  ov_performance_mode : string
}.

(** The graph and the collaborators that work on it. *)
Class Runtime := {
  Model : Type;
  Tensors : Type;
  get_friendly_name : Model -> string;
  (* [void transform_model(const std::shared_ptr<ov::Model>&)]: rewrites
     the graph in place, or throws *)
  transform : Model -> exception + Model;
  (* [ov::pass::Serialize(xmlFile, binFile).run_on_model]: the contents of
     the two string streams afterwards *)
  Serialize : Model -> list byte * list byte;
  (* reading a graph back from the two payloads *)
  read_model : list byte -> list byte -> option Model;
  (* one inference pass over the graph *)
  infer : Model -> Tensors -> Tensors
}.

(** A message [carries] the text of an exception when it ends with it;
    an exception that is not a [std::exception] has no text. *)
Definition carries_text (message : string) (e : exception) : Prop :=
  match e with
  | std_exception _ what => exists prefix, message = prefix +:+ what
  | non_std_exception => True
  end.

(** ** Effects *)

(** A computation over a state [S] that returns an [A] or throws. *)
Definition eff (S A : Type) : Type := S -> S * (exception + A).

Definition ret {S A} (a : A) : eff S A := fun s => (s, inr a).

Definition throw {S A} (e : exception) : eff S A := fun s => (s, inl e).

Definition bind {S A B} (c : eff S A) (k : A -> eff S B) : eff S B :=
  fun s => match c s with
           | (s', inr a) => k a s'
           | (s', inl e) => (s', inl e)
           end.

(** [try { c } catch (e) { h e }]; the handler runs in the state the
    throwing computation left behind. *)
Definition try_catch {S A} (c : eff S A) (h : exception -> eff S A) : eff S A :=
  fun s => match c s with
           | (s', inr a) => (s', inr a)
           | (s', inl e) => h e s'
           end.

Notation "'let*' x ':=' c 'in' k" := (bind c (fun x => k))
  (at level 10, x name, c at level 100, k at level 200).

(** ** The configuration *)

Record StreamsExecutorConfig := { _streams : Z }.

(** The members of [Configuration] the code reads, and the two further
    options the specification lists. *)
Record Configuration := {
  device_id : Z;
  disable_transformations : bool;
  streams_executor_config : StreamsExecutorConfig;
  enable_profiling : bool;
  perf_mode : string
}.

Section Engine.
Context {names : PropertyNames} {runtime : Runtime}.

(** Modelled from the spec: [Configuration::Get], whose definition is not
    among the sources.  The configuration is a "key->value mapping of
    recognized options: {device_id: integer, num_streams: integer,
    enable_profiling: bool, disable_transformations: bool, perf_mode:
    enum}", and "unknown keys on read fail with NotFound". *)
Definition Configuration_options (cfg : Configuration) : gmap string Any :=
  list_to_map
    [ (ov_device_id, Any_int (device_id cfg));
      (ov_num_streams, Any_int (_streams (streams_executor_config cfg)));
      (ov_enable_profiling, Any_bool (enable_profiling cfg));
      (ov_disable_transformations, Any_bool (disable_transformations cfg));
      (ov_performance_mode, Any_string (perf_mode cfg)) ].

Definition Configuration_Get (cfg : Configuration) (name : string) : exception + Any :=
  match Configuration_options cfg !! name with
  | Some value => inr value
  | None => inl (std_exception NotFound name)
  end.

(** ** The compiled model *)

Record Plugin := { get_device_name : string }.

(** [get_plugin] stands for the plugin handle kept by the base class
    [ov::ICompiledModel]; the remote context and the task executor handed
    to the base class play no part in the functions below. *)
Record CompiledModel := {
  get_plugin : Plugin;
  m_cfg : Configuration;
  m_model : Model;
  m_loaded_from_cache : bool
}.

(** The calls made to collaborators, oldest first. *)
Inductive event :=
| transform_model_called (model : Model).

Definition trace := list event.

Definition transform_model (model : Model) : eff trace Model :=
  fun log => (log ++ [transform_model_called model], transform model).

(** [compile_model]: [model] and [m_model] point to the same graph, which
    the transformations rewrite in place; the result is that graph
    afterwards. *)
Definition compile_model (this : CompiledModel) (model : Model) : eff trace Model :=
  if disable_transformations (m_cfg this) then
    ret model
  else
    (* apply plugins transformations *)
    transform_model model.

(** The member initialisers of the constructor. *)
Definition initial_members (model : Model) (plugin : Plugin)
    (cfg : Configuration) (loaded_from_cache : bool) : CompiledModel :=
  {| get_plugin := plugin;
     m_cfg := cfg;
     m_model := model;
     m_loaded_from_cache := loaded_from_cache |}.

(** The constructor: the members are initialised, then [compile_model]
    runs inside the [try] block. *)
Definition CompiledModel_ctor (model : Model) (plugin : Plugin)
    (cfg : Configuration) (loaded_from_cache : bool) : eff trace CompiledModel :=
  let this := initial_members model plugin cfg loaded_from_cache in
  let* compiled := try_catch (compile_model this (m_model this))
    (fun e =>
       match e with
       | std_exception InferenceEngine_Exception what =>
           (* Some transformations can throw legacy exception *)
           throw (OPENVINO_THROW what)
       | std_exception _ what =>
           throw (OPENVINO_THROW
                    ("Standard exception from compilation library: " +:+ what))
       | non_std_exception =>
           throw (OPENVINO_THROW "Generic exception is thrown")
       end) in
  ret {| get_plugin := get_plugin this;
         m_cfg := m_cfg this;
         m_model := compiled;
         m_loaded_from_cache := m_loaded_from_cache this |}.

(** [set_property]: a member function on a mutable object, so the state
    it runs over is the compiled model itself. *)
Definition set_property (properties : gmap string Any) : eff CompiledModel unit :=
  throw OPENVINO_NOT_IMPLEMENTED.

Definition get_runtime_model (this : CompiledModel) : Model := m_model this.

(** *** [get_property] *)

Definition add_ro_properties (name : string) (properties : list PropertyName)
    : list PropertyName :=
  properties ++ [mkPropertyName name RO].

Definition default_ro_properties : list PropertyName :=
  [ mkPropertyName ov_model_name RO;
    mkPropertyName ov_supported_properties RO;
    mkPropertyName ov_execution_devices RO;
    mkPropertyName ov_loaded_from_cache RO;
    mkPropertyName ov_optimal_number_of_infer_requests RO ].

Definition default_rw_properties : list PropertyName :=
  [ mkPropertyName ov_device_id RW;
    mkPropertyName ov_enable_profiling RW ].

(** The loop [for (property : properties) ret.emplace_back(property)]. *)
Definition to_string_vector (properties : list PropertyName) : list string :=
  fold_left (fun ret property => ret ++ [property_name property]) properties [].

Definition get_property (this : CompiledModel) (name : string) : exception + Any :=
  if String.eqb METRIC_KEY_SUPPORTED_METRICS name then
    let metrics := default_ro_properties in
    let metrics := add_ro_properties METRIC_KEY_SUPPORTED_METRICS metrics in
    let metrics := add_ro_properties METRIC_KEY_SUPPORTED_CONFIG_KEYS metrics in
    inr (Any_strings (to_string_vector metrics))
  else if String.eqb METRIC_KEY_SUPPORTED_CONFIG_KEYS name then
    let configs := default_rw_properties in
    let configs :=
      fold_left (fun configs configKey => configs ++ [mkPropertyName configKey RW])
                streamExecutorConfigKeys configs in
    inr (Any_strings (to_string_vector configs))
  else if String.eqb ov_model_name name then
    let model_name := get_friendly_name (m_model this) in
    inr (Any_string model_name)
  else if String.eqb ov_loaded_from_cache name then
    inr (Any_bool (m_loaded_from_cache this))
  else if String.eqb ov_execution_devices name then
    inr (Any_strings
           [get_device_name (get_plugin this) +:+ "." +:+
            to_string (device_id (m_cfg this))])
  else if String.eqb ov_optimal_number_of_infer_requests name then
    let value := to_unsigned_int (_streams (streams_executor_config (m_cfg this))) in
    inr (Any_uint32 value)
  else if String.eqb ov_supported_properties name then
    let ro_properties := default_ro_properties in
    let rw_properties := default_rw_properties in
    let supported_properties := [] in
    let supported_properties := supported_properties ++ ro_properties in
    let supported_properties := supported_properties ++ rw_properties in
    inr (Any_properties supported_properties)
  else
    Configuration_Get (m_cfg this) name.

(** *** [export_model] *)

Definition export_model (host : endianness) (this : CompiledModel)
    (model_stream : ostream) : ostream :=
  let '(xmlFile, binFile) := Serialize (m_model this) in
  let m_constants := binFile in
  let m_model := xmlFile in
  let dataSize := to_uint64 (size m_model) in
  let model_stream :=
    ostream_write model_stream (uint64_bytes host dataSize) (Z.of_nat sizeof_uint64) in
  let model_stream := ostream_write model_stream m_model dataSize in
  let dataSize := to_uint64 (size m_constants) in
  let model_stream :=
    ostream_write model_stream (uint64_bytes host dataSize) (Z.of_nat sizeof_uint64) in
  ostream_write model_stream m_constants dataSize.

(** *** [import] *)

(** [read(buf, n)] on the bytes that remain in an input stream: the [n]
    bytes read and the rest, or nothing when fewer than [n] remain. *)
Definition istream_read (source : list byte) (n : Z) : option (list byte * list byte) :=
  if decide (0 <= n <= size source)
  then Some (take (Z.to_nat n) source, drop (Z.to_nat n) source)
  else None.

Definition read_section (host : endianness) (source : list byte)
    : option (list byte * list byte) :=
  match istream_read source (Z.of_nat sizeof_uint64) with
  | Some (dataSize, source) => istream_read source (uint64_value host dataSize)
  | None => None
  end.

(** Modelled from the spec: [import], which lives in the plugin and is not
    among the sources.  It "reads the same two-part framing and
    reconstructs a graph; the resulting CompiledModel is marked
    loaded_from_cache = true and, by design, re-applies no
    transformations"; it fails with [DeserializationError]. *)
Definition import_model (host : endianness) (source : list byte)
    (plugin : Plugin) (config : Configuration) : exception + CompiledModel :=
  match read_section host source with
  | Some (structure, source) =>
      match read_section host source with
      | Some (constants, _) =>
          match read_model structure constants with
          | Some graph =>
              inr {| get_plugin := plugin;
                     m_cfg := config;
                     m_model := graph;
                     m_loaded_from_cache := true |}
          | None => inl (std_exception DeserializationError "graph")
          end
      | None => inl (std_exception DeserializationError "constants")
      end
  | None => inl (std_exception DeserializationError "structure")
  end.

(** ** Vocabulary of the properties *)

(** The names [get_property] answers itself, in the order of its tests:
    the two legacy metrics, then five read-only properties. *)
Definition own_names : list string :=
  [ METRIC_KEY_SUPPORTED_METRICS;
    METRIC_KEY_SUPPORTED_CONFIG_KEYS;
    ov_model_name;
    ov_loaded_from_cache;
    ov_execution_devices;
    ov_optimal_number_of_infer_requests;
    ov_supported_properties ].

(** The specification's reading of [supported_properties]: the read-only
    keys, the read-write keys, "plus executor-specific
    stream-configuration keys". *)
Definition spec_supported_properties : list string :=
  map property_name default_ro_properties
    ++ map property_name default_rw_properties
    ++ streamExecutorConfigKeys.

(** The contract the serializer and the reader of graphs are trusted to
    keep: a graph read back from its two payloads computes what the
    original computes. *)
Definition serialization_faithful : Prop :=
  forall graph : Model,
    exists graph',
      read_model (fst (Serialize graph)) (snd (Serialize graph)) = Some graph'
      /\ forall input, infer graph' input = infer graph input.

End Engine.

(** ** Sample instances *)

(** The property names as OpenVINO 2023 spells them, with a few of the
    keys of the streams executor. *)
Definition openvino_names : PropertyNames := {|
  ov_model_name := "NETWORK_NAME";
  ov_supported_properties := "SUPPORTED_PROPERTIES";
  ov_execution_devices := "EXECUTION_DEVICES";
  ov_loaded_from_cache := "LOADED_FROM_CACHE";
  ov_optimal_number_of_infer_requests := "OPTIMAL_NUMBER_OF_INFER_REQUESTS";
  ov_device_id := "DEVICE_ID";
  ov_enable_profiling := "PERF_COUNT";
  METRIC_KEY_SUPPORTED_METRICS := "SUPPORTED_METRICS";
  METRIC_KEY_SUPPORTED_CONFIG_KEYS := "SUPPORTED_CONFIG_KEYS";
  streamExecutorConfigKeys :=
    ["CPU_THROUGHPUT_STREAMS"; "CPU_BIND_THREAD"; "CPU_THREADS_NUM";
     "NUM_STREAMS"; "INFERENCE_NUM_THREADS"; "AFFINITY"];
  ov_num_streams := "NUM_STREAMS";
  ov_disable_transformations := "DISABLE_TRANSFORMATIONS";
  ov_performance_mode := "PERFORMANCE_HINT"
|}.

(** A runtime small enough to run: a graph is its two payloads, inference
    echoes the payloads in front of the input, and the transformations
    fail in one of three ways on graphs whose structure is a single
    marker byte. *)
Definition byte_runtime : Runtime := {|
  Model := list byte * list byte;
  Tensors := list byte;
  get_friendly_name := fun _ => "bytes";
  transform := fun g =>
    match fst g with
    | [x01] => inl (std_exception InferenceEngine_Exception "legacy pass failed")
    | [x02] => inl (std_exception other_std_exception "bad_alloc")
    | [x03] => inl (std_exception ov_Exception "check failed")
    | [x04] => inl non_std_exception
    | _ => inr (fst g, rev (rev (snd g)))
    end;
  Serialize := fun g => g;
  read_model := fun structure constants => Some (structure, constants);
  infer := fun g input => fst g ++ snd g ++ input
|}.

Definition template_plugin : Plugin := {| get_device_name := "TEMPLATE" |}.

Definition sample_config (disable : bool) : Configuration := {|
  device_id := 0;
  disable_transformations := disable;
  streams_executor_config := {| _streams := 4 |};
  enable_profiling := false;
  perf_mode := "LATENCY"
|}.

Definition byte_graph (structure constants : list byte)
    : Model (Runtime := byte_runtime) :=
  (structure, constants).

Definition sample_model (structure constants : list byte)
    : CompiledModel (runtime := byte_runtime) := {|
  get_plugin := template_plugin;
  m_cfg := sample_config false;
  m_model := byte_graph structure constants;
  m_loaded_from_cache := false
|}.

(** * Properties *)

(** ** The object representation of lengths *)

Section ByteFacts.

Lemma Z_of_byte_of_Z z : Z_of_byte (byte_of_Z z) = z mod 256.
Proof.
  unfold Z_of_byte, byte_of_Z.
  assert (Hr : 0 <= z mod 256 < 256) by (apply Z.mod_pos_bound; lia).
  destruct (Byte.of_N (Z.to_N (z mod 256))) as [b|] eqn:Hb; simpl.
  - apply Byte.to_of_N in Hb. rewrite Hb. lia.
  - apply Byte.of_N_None_iff in Hb. lia.
Qed.

Lemma Z_of_byte_range b : 0 <= Z_of_byte b < 256.
Proof.
  unfold Z_of_byte. pose proof (Byte.to_N_bounded b). lia.
Qed.

Lemma length_le_bytes n v : length (le_bytes n v) = n.
Proof.
  revert v. induction n as [|n IH]; intros v; simpl; [reflexivity|].
  now rewrite IH.
Qed.

(** Reading [n] little-endian bytes back gives the value modulo [2^(8n)]. *)
Lemma le_value_le_bytes n v :
  le_value (le_bytes n v) = v mod 2 ^ (8 * Z.of_nat n).
Proof.
  revert v. induction n as [|n IH]; intros v.
  - simpl. now rewrite Z.mod_1_r.
  - cbn [le_bytes le_value]. rewrite IH, Z_of_byte_of_Z.
    change 256 with (2 ^ 8).
    apply Z.bits_inj'; intros i Hi.
    rewrite Z.lor_spec, Z.shiftl_spec by lia.
    rewrite !Z.testbit_mod_pow2 by lia.
    destruct (Z.ltb_spec i 8) as [Hlt|Hge].
    + rewrite (Z.testbit_neg_r _ (i - 8)) by lia.
      destruct (Z.ltb_spec i (8 * Z.of_nat (S n))); [|lia].
      now rewrite andb_false_r, orb_false_r.
    + rewrite Z.shiftr_spec by lia.
      replace (i - 8 + 8) with i by lia.
      simpl orb.
      destruct (Z.ltb_spec (i - 8) (8 * Z.of_nat n)),
               (Z.ltb_spec i (8 * Z.of_nat (S n))); try lia; reflexivity.
Qed.

Lemma length_uint64_bytes host v : length (uint64_bytes host v) = sizeof_uint64.
Proof.
  destruct host; unfold uint64_bytes;
    rewrite ?length_rev; apply length_le_bytes.
Qed.

(** Storing a length and loading it again loses nothing below [2^64]. *)
Lemma uint64_value_bytes host v :
  uint64_value host (uint64_bytes host v) = to_uint64 v.
Proof.
  unfold to_uint64.
  destruct host; unfold uint64_value, uint64_bytes;
    rewrite ?rev_involutive; apply le_value_le_bytes.
Qed.

Lemma to_uint64_small v : 0 <= v < 2 ^ 64 -> to_uint64 v = v.
Proof. intros H. unfold to_uint64. now apply Z.mod_small. Qed.

Lemma size_nonneg s : 0 <= size s.
Proof. unfold size. lia. Qed.

(** Writing a whole buffer appends it. *)
Lemma ostream_write_all os s : ostream_write os s (size s) = os ++ s.
Proof.
  unfold ostream_write, size. now rewrite Nat2Z.id, firstn_all.
Qed.

End ByteFacts.

(** ** Export *)

Section ExportFacts.
Context {runtime : Runtime}.

(** What [export_model] appends, for payloads of any size: each length
    field holds the payload size reduced modulo [2^64], and that many
    bytes of the payload follow. *)
Lemma export_model_unfold host this model_stream :
  let structure := fst (Serialize (m_model this)) in
  let constants := snd (Serialize (m_model this)) in
  export_model host this model_stream =
    model_stream
      ++ uint64_bytes host (to_uint64 (size structure))
      ++ take (Z.to_nat (to_uint64 (size structure))) structure
      ++ uint64_bytes host (to_uint64 (size constants))
      ++ take (Z.to_nat (to_uint64 (size constants))) constants.
Proof.
  unfold export_model.
  destruct (Serialize (m_model this)) as [xmlFile binFile]; simpl.
  unfold ostream_write. rewrite Nat2Z.id.
  rewrite !(firstn_all2 (n := sizeof_uint64) (uint64_bytes _ _))
    by now rewrite length_uint64_bytes.
  now rewrite <- !app_assoc.
Qed.

(** C1: the exported artifact is the bytes already in the sink followed by
    exactly [u64 len_struct][struct bytes][u64 len_blob][blob bytes]: an
    8-byte field holding the length of the structural description, the
    description, an 8-byte field holding the length of the constants blob,
    the blob, and nothing else.  The sizes are those of [std::string]s,
    hence below [2^64]. *)
Theorem export_model_framing host this model_stream :
  let structure := fst (Serialize (m_model this)) in
  let constants := snd (Serialize (m_model this)) in
  let len_struct := uint64_bytes host (size structure) in
  let len_blob := uint64_bytes host (size constants) in
  size structure < 2 ^ 64 ->
  size constants < 2 ^ 64 ->
  export_model host this model_stream =
    model_stream ++ len_struct ++ structure ++ len_blob ++ constants
  /\ length len_struct = 8%nat
  /\ uint64_value host len_struct = size structure
  /\ length len_blob = 8%nat
  /\ uint64_value host len_blob = size constants.
Proof.
  intros structure constants len_struct len_blob Hs Hc.
  pose proof (size_nonneg structure) as Hs0.
  pose proof (size_nonneg constants) as Hc0.
  split; [|repeat split].
  - rewrite export_model_unfold. fold structure constants.
    rewrite !to_uint64_small by lia.
    unfold size. rewrite !Nat2Z.id, !firstn_all. reflexivity.
  - apply length_uint64_bytes.
  - unfold len_struct. rewrite uint64_value_bytes. apply to_uint64_small; lia.
  - apply length_uint64_bytes.
  - unfold len_blob. rewrite uint64_value_bytes. apply to_uint64_small; lia.
Qed.

End ExportFacts.

(** ** Compilation *)

Section CompileFacts.
Context {runtime : Runtime}.

(** C5: [compile_model] leaves the transformations uncalled exactly when
    [disable_transformations] is set, and then hands the graph back as it
    was; otherwise it calls them once, on that graph, and its outcome is
    theirs. *)
Theorem compile_model_skips_iff_disabled (this : CompiledModel) (model : Model) (log : trace) :
  (disable_transformations (m_cfg this) = true
     <-> fst (compile_model this model log) = log)
  /\ (disable_transformations (m_cfg this) = true
     -> compile_model this model log = (log, inr model))
  /\ (disable_transformations (m_cfg this) = false
     -> compile_model this model log =
          (log ++ [transform_model_called model], transform model)).
Proof.
  unfold compile_model, transform_model, ret.
  destruct (disable_transformations (m_cfg this)); simpl.
  - repeat split; intros; congruence.
  - repeat split; try congruence.
    intros H. apply (f_equal (@length _)) in H.
    rewrite length_app in H. simpl in H. lia.
Qed.

(** With the transformations disabled the constructor yields its initial
    members and calls nothing. *)
Lemma constructor_verbatim model plugin cfg flag log :
  disable_transformations cfg = true ->
  CompiledModel_ctor model plugin cfg flag log
    = (log, inr (initial_members model plugin cfg flag)).
Proof.
  intros Hoff. unfold CompiledModel_ctor, bind, try_catch, compile_model, ret.
  cbn [m_cfg m_model initial_members]. now rewrite Hoff.
Qed.

(** C2: whatever [compile_model] throws -- a legacy exception, any other
    standard exception, or something unknown -- the constructor throws
    [ov::Exception] with a diagnostic message in its place, and constructs
    no model; nothing but [ov::Exception] ever leaves the constructor. *)
Theorem constructor_failures_uniform model plugin cfg loaded_from_cache log :
  (forall log' e,
      compile_model (initial_members model plugin cfg loaded_from_cache) model log
        = (log', inl e) ->
      exists message,
        CompiledModel_ctor model plugin cfg loaded_from_cache log
          = (log', inl (std_exception ov_Exception message))
        /\ carries_text message e)
  /\ (forall log' e',
      CompiledModel_ctor model plugin cfg loaded_from_cache log = (log', inl e') ->
      exists message, e' = std_exception ov_Exception message).
Proof.
  unfold CompiledModel_ctor, bind, try_catch, throw, ret, OPENVINO_THROW.
  cbn [m_model initial_members].
  destruct (compile_model _ model log) as [log1 [e|compiled]]; split.
  - intros log' e0 [= <- <-].
    destruct e as [[] what|]; eexists; (split; [reflexivity|]); simpl;
      solve [ now exists "" | eauto ].
  - intros log' e'.
    destruct e as [[] what|]; intros [= <- <-]; eauto.
  - intros log' e0 [=].
  - intros log' e' [=].
Qed.

(** C4: [set_property] throws [ov::NotImplemented] whatever the properties
    are, and the object it was called on -- configuration and graph
    included -- is as before. *)
Theorem set_property_not_implemented (this : CompiledModel)
    (properties : gmap string Any) :
  exists this' message,
    set_property properties this
      = (this', inl (std_exception ov_NotImplemented message))
    /\ this' = this
    /\ m_cfg this' = m_cfg this
    /\ m_model this' = m_model this.
Proof.
  exists this, "Not Implemented". repeat split.
Qed.

End CompileFacts.

(** ** Properties read from a compiled model *)

(** With pairwise distinct names, the only test that succeeds for one of
    [own_names] is its own. *)
Ltac decide_names Hdup :=
  unfold own_names in Hdup;
  repeat (apply NoDup_cons in Hdup as [? Hdup]); clear Hdup;
  unfold get_property;
  repeat match goal with
         | |- context [String.eqb ?a ?a] => rewrite (String.eqb_refl a)
         | |- context [String.eqb ?a ?b] =>
             rewrite (proj2 (String.eqb_neq a b)) by set_solver
         end;
  cbv iota.

Section PropertyFacts.
Context {names : PropertyNames} {runtime : Runtime}.

Lemma to_string_vector_map (properties : list PropertyName) :
  to_string_vector properties = map property_name properties.
Proof.
  unfold to_string_vector.
  enough (H : forall acc,
             fold_left (fun ret property => ret ++ [property_name property])
                       properties acc
             = acc ++ map property_name properties) by apply (H []).
  induction properties as [|p ps IH]; intros acc; simpl.
  - now rewrite app_nil_r.
  - now rewrite IH, <- app_assoc.
Qed.

Lemma emplace_back_all (keys : list string) (configs : list PropertyName) :
  fold_left (fun configs configKey => configs ++ [mkPropertyName configKey RW])
            keys configs
  = configs ++ map (fun configKey => mkPropertyName configKey RW) keys.
Proof.
  revert configs. induction keys as [|k ks IH]; intros configs; simpl.
  - now rewrite app_nil_r.
  - now rewrite IH, <- app_assoc.
Qed.

(** A name outside [own_names] fails every test of [get_property]. *)
Lemma get_property_delegates this name :
  ~ In name own_names ->
  get_property this name = Configuration_Get (m_cfg this) name.
Proof.
  intros Hout. unfold get_property.
  repeat match goal with
         | |- context [String.eqb ?a name] =>
             destruct (String.eqb_spec a name) as [Heq|_];
             [exfalso; apply Hout; rewrite <- Heq; simpl; tauto|]
         end.
  reflexivity.
Qed.

Lemma to_unsigned_int_small x : 0 <= x < 2 ^ 32 -> to_unsigned_int x = x.
Proof. intros H. unfold to_unsigned_int. now apply Z.mod_small. Qed.

(** [std::to_string] prints the decimal numeral of its argument: reading
    the text as a decimal numeral gives the number back. *)
Lemma to_string_decimal z :
  option_map Z.of_int (NilZero.int_of_string (to_string z)) = Some z.
Proof.
  unfold to_string.
  assert (Hpos : Z.to_int z <> Decimal.Pos Decimal.Nil).
  { destruct z; simpl; try discriminate;
      intros [= H]; now apply DecimalPos.Unsigned.to_uint_nonnil in H. }
  assert (Hneg : Z.to_int z <> Decimal.Neg Decimal.Nil).
  { destruct z; simpl; try discriminate;
      intros [= H]; now apply DecimalPos.Unsigned.to_uint_nonnil in H. }
  rewrite (NilZero.isi _ Hpos Hneg). cbn [option_map].
  f_equal. apply DecimalZ.of_to.
Qed.

(** C7, as the code has it: [optimal_number_of_infer_requests] is the
    stream count of the configuration converted to [unsigned int], that
    is, reduced modulo [2^32]; it is the stream count itself exactly when
    the count lies between [0] and [2^32 - 1]. *)
Theorem get_property_optimal_number_of_infer_requests (this : CompiledModel) :
  NoDup own_names ->
  let count := _streams (streams_executor_config (m_cfg this)) in
  get_property this ov_optimal_number_of_infer_requests
    = inr (Any_uint32 (count mod 2 ^ 32))
  /\ (get_property this ov_optimal_number_of_infer_requests
        = inr (Any_uint32 count)
      <-> 0 <= count < 2 ^ 32).
Proof.
  intros Hdup count.
  assert (Hanswer : get_property this ov_optimal_number_of_infer_requests
                    = inr (Any_uint32 (count mod 2 ^ 32))).
  { decide_names Hdup. reflexivity. }
  split; [exact Hanswer|].
  rewrite Hanswer. split.
  - intros [= Hsame]. rewrite <- Hsame. apply Z.mod_pos_bound. lia.
  - intros Hrange. now rewrite Z.mod_small.
Qed.

(** C10: [execution_devices] holds one entry, the device name of the
    plugin, a dot and the decimal numeral of the configured device id. *)
Theorem get_property_execution_devices (this : CompiledModel) :
  NoDup own_names ->
  exists numeral,
    get_property this ov_execution_devices
      = inr (Any_strings [get_device_name (get_plugin this) +:+ "." +:+ numeral])
    /\ numeral = to_string (device_id (m_cfg this))
    /\ option_map Z.of_int (NilZero.int_of_string numeral)
       = Some (device_id (m_cfg this)).
Proof.
  intros Hdup. exists (to_string (device_id (m_cfg this))).
  split; [|split; [reflexivity | apply to_string_decimal]].
  decide_names Hdup. reflexivity.
Qed.

(** C9: the two legacy metric names are answered by [get_property]
    itself, whatever the configuration holds: SUPPORTED_METRICS with the
    read-only names followed by the two metric names, and
    SUPPORTED_CONFIG_KEYS with the read-write names followed by the keys of
    the streams executor. *)
Theorem get_property_legacy_metrics (this : CompiledModel) :
  NoDup own_names ->
  get_property this METRIC_KEY_SUPPORTED_METRICS
    = inr (Any_strings
             (map property_name default_ro_properties
                ++ [METRIC_KEY_SUPPORTED_METRICS; METRIC_KEY_SUPPORTED_CONFIG_KEYS]))
  /\ get_property this METRIC_KEY_SUPPORTED_CONFIG_KEYS
    = inr (Any_strings
             (map property_name default_rw_properties ++ streamExecutorConfigKeys)).
Proof.
  intros Hdup. split; decide_names Hdup.
  - rewrite to_string_vector_map. reflexivity.
  - rewrite to_string_vector_map, emplace_back_all, map_app, map_map.
    simpl. now rewrite map_id.
Qed.

(** C8, as the code has it: [supported_properties] lists the five
    read-only properties and then [device_id] and [enable_profiling], and
    no key of the streams executor. *)
Theorem get_property_supported_properties (this : CompiledModel) :
  NoDup own_names ->
  get_property this ov_supported_properties
    = inr (Any_properties
             [ mkPropertyName ov_model_name RO;
               mkPropertyName ov_supported_properties RO;
               mkPropertyName ov_execution_devices RO;
               mkPropertyName ov_loaded_from_cache RO;
               mkPropertyName ov_optimal_number_of_infer_requests RO;
               mkPropertyName ov_device_id RW;
               mkPropertyName ov_enable_profiling RW ]).
Proof.
  intros Hdup. decide_names Hdup. reflexivity.
Qed.

(** C6, as the code has it: a name that is none of the five read-only
    properties, neither of the two legacy metrics, and no option of the
    configuration is passed to [Configuration::Get], which fails with
    [NotFound]. *)
Theorem get_property_unknown_name (this : CompiledModel) (name : string) :
  ~ In name own_names ->
  Configuration_options (m_cfg this) !! name = None ->
  get_property this name = Configuration_Get (m_cfg this) name
  /\ get_property this name = inl (std_exception NotFound name).
Proof.
  intros Hout Hnone.
  rewrite (get_property_delegates this name Hout).
  split; [reflexivity|].
  unfold Configuration_Get. now rewrite Hnone.
Qed.

End PropertyFacts.

(** ** Export followed by import *)

Section RoundTrip.
Context {names : PropertyNames} {runtime : Runtime}.

Lemma istream_read_app (chunk rest : list byte) :
  istream_read (chunk ++ rest) (size chunk) = Some (chunk, rest).
Proof.
  unfold istream_read, size.
  rewrite length_app, Nat2Z.id.
  destruct (decide _) as [_|Hno]; [|lia].
  now rewrite take_app_length, drop_app_length.
Qed.

(** A length field followed by as many bytes as it announces is read back
    as those bytes, and the stream is left right after them. *)
Lemma read_section_written host (payload rest : list byte) :
  size payload < 2 ^ 64 ->
  read_section host (uint64_bytes host (size payload) ++ payload ++ rest)
    = Some (payload, rest).
Proof.
  intros Hsize. unfold read_section.
  pose proof (length_uint64_bytes host (size payload)) as Hlen.
  replace (Z.of_nat sizeof_uint64)
    with (size (uint64_bytes host (size payload)))
    by (unfold size at 1; now rewrite Hlen).
  rewrite istream_read_app, uint64_value_bytes.
  rewrite to_uint64_small by (pose proof (size_nonneg payload); lia).
  apply istream_read_app.
Qed.

(** The member the constructor was given comes back from [get_property]. *)
Lemma constructed_loaded_from_cache model plugin cfg flag log log' this :
  CompiledModel_ctor model plugin cfg flag log = (log', inr this) ->
  m_loaded_from_cache this = flag.
Proof.
  unfold CompiledModel_ctor, bind, try_catch, throw, ret.
  cbn [m_model initial_members m_loaded_from_cache].
  destruct (compile_model _ model log) as [log1 [e|compiled]].
  - destruct e as [[] what|]; discriminate.
  - now intros [= _ <-].
Qed.

(** C3: let [this] be a model the constructor has produced, and let the
    serializer and the reader keep their contract.  Then [get_property]
    reads back the [loaded_from_cache] flag the constructor was given;
    and importing what [export_model] wrote into an empty sink, under any
    configuration, succeeds with a model whose graph computes the same
    outputs on every input and whose [loaded_from_cache] reads [true]. *)
Theorem export_import_round_trip host model plugin cfg flag log log'
    (this : CompiledModel) (plugin' : Plugin) (config : Configuration) :
  NoDup own_names ->
  serialization_faithful ->
  size (fst (Serialize (m_model this))) < 2 ^ 64 ->
  size (snd (Serialize (m_model this))) < 2 ^ 64 ->
  CompiledModel_ctor model plugin cfg flag log = (log', inr this) ->
  get_property this ov_loaded_from_cache = inr (Any_bool flag)
  /\ exists imported,
       import_model host (export_model host this []) plugin' config = inr imported
       /\ (forall input,
             infer (m_model imported) input = infer (m_model this) input)
       /\ get_property imported ov_loaded_from_cache = inr (Any_bool true).
Proof.
  intros Hdup Hfaithful Hs Hc Hctor.
  assert (Hflag : forall that : CompiledModel,
             get_property that ov_loaded_from_cache
             = inr (Any_bool (m_loaded_from_cache that))).
  { intros that. decide_names Hdup. reflexivity. }
  split.
  - rewrite Hflag. f_equal. f_equal.
    eapply constructed_loaded_from_cache, Hctor.
  - destruct (Hfaithful (m_model this)) as (graph' & Hread & Hsame).
    assert (Hexport : export_model host this []
              = [] ++ uint64_bytes host (size (fst (Serialize (m_model this))))
                   ++ fst (Serialize (m_model this))
                   ++ uint64_bytes host (size (snd (Serialize (m_model this))))
                   ++ snd (Serialize (m_model this))).
    { rewrite export_model_unfold. cbv zeta.
      rewrite !to_uint64_small by (split; [apply size_nonneg | assumption]).
      unfold size. now rewrite !Nat2Z.id, !firstn_all. }
    exists {| get_plugin := plugin';
              m_cfg := config;
              m_model := graph';
              m_loaded_from_cache := true |}.
    split; [|split].
    + unfold import_model. rewrite Hexport. cbn [app].
      rewrite (read_section_written host _ _ Hs).
      rewrite <- (app_nil_r (snd (Serialize (m_model this)))) at 2.
      rewrite (read_section_written host _ [] Hc).
      now rewrite Hread.
    + exact Hsame.
    + apply Hflag.
Qed.

End RoundTrip.

(** ** The properties at the sample instances *)

Section Samples.

#[local] Existing Instance openvino_names.
#[local] Existing Instance byte_runtime.

Lemma openvino_names_distinct : NoDup own_names.
Proof. apply (bool_decide_unpack _). vm_compute. exact I. Qed.

Lemma byte_runtime_faithful : serialization_faithful.
Proof.
  intros [structure constants]. exists (structure, constants).
  split; reflexivity.
Qed.

Lemma export_model_framing_witness :
  let this := sample_model [x05; x07] [x06] in
  size (fst (Serialize (m_model this))) < 2 ^ 64
  /\ size (snd (Serialize (m_model this))) < 2 ^ 64
  /\ export_model LittleEndian this []
     = [x02; x00; x00; x00; x00; x00; x00; x00; x05; x07;
        x01; x00; x00; x00; x00; x00; x00; x00; x06].
Proof.
  intros this.
  assert (Hs : size (fst (Serialize (m_model this))) < 2 ^ 64) by reflexivity.
  assert (Hc : size (snd (Serialize (m_model this))) < 2 ^ 64) by reflexivity.
  split; [exact Hs|split; [exact Hc|]].
  destruct (export_model_framing LittleEndian this [] Hs Hc) as [Hexport _].
  rewrite Hexport. reflexivity.
Defined.

Lemma compile_model_skips_iff_disabled_witness :
  compile_model (sample_model [x05] [x06]) (byte_graph [x05] [x06]) []
  = ([transform_model_called (byte_graph [x05] [x06])], inr (byte_graph [x05] [x06])).
Proof.
  destruct (compile_model_skips_iff_disabled (sample_model [x05] [x06]) (byte_graph [x05] [x06]) [])
    as (_ & _ & Hon).
  rewrite Hon; reflexivity.
Defined.

Lemma constructor_failures_uniform_witness :
  compile_model (initial_members (byte_graph [x01] []) template_plugin (sample_config false) false)
                (byte_graph [x01] []) []
    = ([transform_model_called (byte_graph [x01] [])],
       inl (std_exception InferenceEngine_Exception "legacy pass failed"))
  /\ exists message,
       CompiledModel_ctor (byte_graph [x01] []) template_plugin (sample_config false) false []
         = ([transform_model_called (byte_graph [x01] [])],
            inl (std_exception ov_Exception message))
       /\ carries_text message
            (std_exception InferenceEngine_Exception "legacy pass failed").
Proof.
  split; [reflexivity|].
  destruct (constructor_failures_uniform
              (byte_graph [x01] []) template_plugin (sample_config false) false [])
    as [Hthrow _].
  apply Hthrow. reflexivity.
Defined.

Lemma get_property_optimal_number_of_infer_requests_witness :
  NoDup own_names
  /\ get_property (sample_model [x05] [x06]) "OPTIMAL_NUMBER_OF_INFER_REQUESTS"
     = inr (Any_uint32 4).
Proof.
  split; [exact openvino_names_distinct|].
  exact (proj1 (get_property_optimal_number_of_infer_requests
                  (sample_model [x05] [x06]) openvino_names_distinct)).
Defined.

(** C7 as worded fails: a stream count of [-1] is not what is returned. *)
Lemma get_property_optimal_number_of_infer_requests_counterexample :
  let this := initial_members (byte_graph [x05] [x06]) template_plugin
                {| device_id := 0;
                   disable_transformations := true;
                   streams_executor_config := {| _streams := -1 |};
                   enable_profiling := false;
                   perf_mode := "LATENCY" |} false in
  get_property this "OPTIMAL_NUMBER_OF_INFER_REQUESTS"
    = inr (Any_uint32 4294967295)
  /\ get_property this "OPTIMAL_NUMBER_OF_INFER_REQUESTS"
     <> inr (Any_uint32 (_streams (streams_executor_config (m_cfg this)))).
Proof.
  intros this. split.
  - vm_compute. reflexivity.
  - vm_compute. discriminate.
Qed.

Lemma get_property_execution_devices_witness :
  NoDup own_names
  /\ exists numeral,
       get_property (sample_model [x05] [x06]) "EXECUTION_DEVICES"
         = inr (Any_strings ["TEMPLATE" +:+ "." +:+ numeral])
       /\ numeral = "0"
       /\ option_map Z.of_int (NilZero.int_of_string numeral) = Some 0.
Proof.
  split; [exact openvino_names_distinct|].
  exact (get_property_execution_devices (sample_model [x05] [x06])
           openvino_names_distinct).
Defined.

Lemma get_property_legacy_metrics_witness :
  NoDup own_names
  /\ get_property (sample_model [x05] [x06]) "SUPPORTED_METRICS"
     = inr (Any_strings
              ["NETWORK_NAME"; "SUPPORTED_PROPERTIES"; "EXECUTION_DEVICES";
               "LOADED_FROM_CACHE"; "OPTIMAL_NUMBER_OF_INFER_REQUESTS";
               "SUPPORTED_METRICS"; "SUPPORTED_CONFIG_KEYS"])
  /\ get_property (sample_model [x05] [x06]) "SUPPORTED_CONFIG_KEYS"
     = inr (Any_strings
              ["DEVICE_ID"; "PERF_COUNT";
               "CPU_THROUGHPUT_STREAMS"; "CPU_BIND_THREAD"; "CPU_THREADS_NUM";
               "NUM_STREAMS"; "INFERENCE_NUM_THREADS"; "AFFINITY"]).
Proof.
  split; [exact openvino_names_distinct|].
  exact (get_property_legacy_metrics (sample_model [x05] [x06])
           openvino_names_distinct).
Defined.

Lemma get_property_supported_properties_witness :
  NoDup own_names
  /\ get_property (sample_model [x05] [x06]) "SUPPORTED_PROPERTIES"
     = inr (Any_properties
              [ mkPropertyName "NETWORK_NAME" RO;
                mkPropertyName "SUPPORTED_PROPERTIES" RO;
                mkPropertyName "EXECUTION_DEVICES" RO;
                mkPropertyName "LOADED_FROM_CACHE" RO;
                mkPropertyName "OPTIMAL_NUMBER_OF_INFER_REQUESTS" RO;
                mkPropertyName "DEVICE_ID" RW;
                mkPropertyName "PERF_COUNT" RW ]).
Proof.
  split; [exact openvino_names_distinct|].
  exact (get_property_supported_properties (sample_model [x05] [x06])
           openvino_names_distinct).
Defined.

Lemma get_property_unknown_name_witness :
  let this := sample_model [x05] [x06] in
  ~ In "nonexistent_key_xyz" own_names
  /\ Configuration_options (m_cfg this) !! "nonexistent_key_xyz" = None
  /\ get_property this "nonexistent_key_xyz"
     = inl (std_exception NotFound "nonexistent_key_xyz").
Proof.
  intros this.
  assert (Hout : ~ In "nonexistent_key_xyz" own_names).
  { simpl. intros H. repeat destruct H as [H|H]; try discriminate H. exact H. }
  assert (Hnone : Configuration_options (m_cfg this) !! "nonexistent_key_xyz" = None)
    by (vm_compute; reflexivity).
  split; [exact Hout|split; [exact Hnone|]].
  exact (proj2 (get_property_unknown_name this "nonexistent_key_xyz" Hout Hnone)).
Defined.

(** C6 as worded fails: SUPPORTED_METRICS is no read-only property and no
    option of the configuration, and yet it is answered. *)
Lemma get_property_unknown_name_counterexample :
  let this := sample_model [x05] [x06] in
  ~ In "SUPPORTED_METRICS" (map property_name default_ro_properties)
  /\ Configuration_options (m_cfg this) !! "SUPPORTED_METRICS" = None
  /\ (exists value, get_property this "SUPPORTED_METRICS" = inr value)
  /\ forall what,
       get_property this "SUPPORTED_METRICS" <> inl (std_exception NotFound what).
Proof.
  intros this. split; [|split; [|split]].
  - simpl. intros H. repeat destruct H as [H|H]; try discriminate H. exact H.
  - vm_compute. reflexivity.
  - eexists. vm_compute. reflexivity.
  - intros what. vm_compute. discriminate.
Qed.

(** C8 as worded fails: a key of the streams executor belongs to the set
    the specification describes and is missing from the answer. *)
Lemma get_property_supported_properties_counterexample :
  exists listed,
    get_property (sample_model [x05] [x06]) "SUPPORTED_PROPERTIES"
      = inr (Any_properties listed)
    /\ In "CPU_THROUGHPUT_STREAMS" spec_supported_properties
    /\ ~ In "CPU_THROUGHPUT_STREAMS" (map property_name listed).
Proof.
  eexists. split; [vm_compute; reflexivity|]. split.
  - simpl. tauto.
  - simpl. intros H. repeat destruct H as [H|H]; try discriminate H. exact H.
Qed.

Lemma export_import_round_trip_witness :
  let graph := byte_graph [x05; x07] [x06] in
  let this := initial_members graph template_plugin (sample_config false) false in
  NoDup own_names
  /\ serialization_faithful
  /\ size (fst (Serialize (m_model this))) < 2 ^ 64
  /\ size (snd (Serialize (m_model this))) < 2 ^ 64
  /\ CompiledModel_ctor graph template_plugin (sample_config false) false []
     = ([transform_model_called graph], inr this)
  /\ get_property this "LOADED_FROM_CACHE" = inr (Any_bool false)
  /\ exists imported,
       import_model BigEndian (export_model BigEndian this [])
                    template_plugin (sample_config true) = inr imported
       /\ (forall input, infer (m_model imported) input = infer (m_model this) input)
       /\ get_property imported "LOADED_FROM_CACHE" = inr (Any_bool true).
Proof.
  intros graph this.
  assert (Hs : size (fst (Serialize (m_model this))) < 2 ^ 64) by reflexivity.
  assert (Hc : size (snd (Serialize (m_model this))) < 2 ^ 64) by reflexivity.
  assert (Hctor : CompiledModel_ctor graph template_plugin (sample_config false) false []
                  = ([transform_model_called graph], inr this)) by reflexivity.
  split; [exact openvino_names_distinct|].
  split; [exact byte_runtime_faithful|].
  split; [exact Hs|]. split; [exact Hc|]. split; [exact Hctor|].
  exact (export_import_round_trip BigEndian graph template_plugin
           (sample_config false) false [] _ this template_plugin (sample_config true)
           openvino_names_distinct byte_runtime_faithful Hs Hc Hctor).
Defined.

(** The other three ways the sample transformations fail. *)
Example constructor_standard_exception :
  CompiledModel_ctor (byte_graph [x02] []) template_plugin (sample_config false) false []
  = ([transform_model_called (byte_graph [x02] [])],
     inl (std_exception ov_Exception
            "Standard exception from compilation library: bad_alloc")).
Proof. reflexivity. Qed.

Example constructor_own_exception :
  CompiledModel_ctor (byte_graph [x03] []) template_plugin (sample_config false) false []
  = ([transform_model_called (byte_graph [x03] [])],
     inl (std_exception ov_Exception
            "Standard exception from compilation library: check failed")).
Proof. reflexivity. Qed.

Example constructor_unknown_exception :
  CompiledModel_ctor (byte_graph [x04] []) template_plugin (sample_config false) false []
  = ([transform_model_called (byte_graph [x04] [])],
     inl (std_exception ov_Exception "Generic exception is thrown")).
Proof. reflexivity. Qed.

(** The same graph compiles once the transformations are disabled. *)
Example constructor_transformations_disabled :
  CompiledModel_ctor (byte_graph [x04] []) template_plugin (sample_config true) true []
  = ([], inr (initial_members (byte_graph [x04] []) template_plugin
                              (sample_config true) true)).
Proof. now apply constructor_verbatim. Qed.

Example export_model_big_endian :
  export_model BigEndian (sample_model [x05; x07] [x06]) [xff]
  = [xff; x00; x00; x00; x00; x00; x00; x00; x02; x05; x07;
     x00; x00; x00; x00; x00; x00; x00; x01; x06].
Proof. reflexivity. Qed.

(** A second length field that announces more than the stream holds. *)
Example import_model_truncated :
  import_model LittleEndian
    [x01; x00; x00; x00; x00; x00; x00; x00; x05;
     x09; x00; x00; x00; x00; x00; x00; x00; x06]
    template_plugin (sample_config true)
  = inl (std_exception DeserializationError "constants").
Proof. reflexivity. Qed.

Example set_property_sample :
  set_property {[ "DEVICE_ID" := Any_int 1 ]} (sample_model [x05] [x06])
  = (sample_model [x05] [x06], inl OPENVINO_NOT_IMPLEMENTED).
Proof. reflexivity. Qed.

End Samples.

(** * Further properties *)

(** ** The constructor and [get_runtime_model] *)

Section ConstructorFacts.
Context {runtime : Runtime}.

(** The constructor unfolded along the outcome of the transformations. *)
Lemma constructor_enabled model plugin cfg flag log :
  disable_transformations cfg = false ->
  CompiledModel_ctor model plugin cfg flag log
  = (log ++ [transform_model_called model],
     match transform model with
     | inr graph => inr (initial_members graph plugin cfg flag)
     | inl (std_exception InferenceEngine_Exception what) =>
         inl (OPENVINO_THROW what)
     | inl (std_exception _ what) =>
         inl (OPENVINO_THROW
                ("Standard exception from compilation library: " +:+ what))
     | inl non_std_exception =>
         inl (OPENVINO_THROW "Generic exception is thrown")
     end).
Proof.
  intros Hon.
  unfold CompiledModel_ctor, bind, try_catch, compile_model, transform_model,
    throw, ret.
  cbn [m_cfg m_model initial_members get_plugin m_loaded_from_cache].
  rewrite Hon.
  destruct (transform model) as [[[] what|]|graph]; reflexivity.
Qed.

(** X1: when the transformations are enabled and succeed, the constructor
    succeeds after calling them once; the model it builds holds the graph
    they produced -- which is what [get_runtime_model] returns -- and the
    plugin, configuration and flag it was given. *)
Theorem constructor_keeps_transformed_graph model plugin cfg flag log graph :
  disable_transformations cfg = false ->
  transform model = inr graph ->
  exists this,
    CompiledModel_ctor model plugin cfg flag log
      = (log ++ [transform_model_called model], inr this)
    /\ get_runtime_model this = graph
    /\ get_plugin this = plugin
    /\ m_cfg this = cfg
    /\ m_loaded_from_cache this = flag.
Proof.
  intros Hon Hok. exists (initial_members graph plugin cfg flag).
  rewrite (constructor_enabled _ _ _ _ _ Hon), Hok. repeat split.
Qed.

(** X2: with the transformations disabled construction cannot fail, even
    for a graph the transformations would reject: the model holds the
    caller's graph as it is and no collaborator is called. *)
Theorem constructor_without_transformations model plugin cfg flag log :
  disable_transformations cfg = true ->
  exists this,
    CompiledModel_ctor model plugin cfg flag log = (log, inr this)
    /\ get_runtime_model this = model
    /\ get_plugin this = plugin
    /\ m_cfg this = cfg
    /\ m_loaded_from_cache this = flag.
Proof.
  intros Hoff. exists (initial_members model plugin cfg flag).
  unfold CompiledModel_ctor, bind, try_catch, compile_model, ret.
  cbn [m_cfg m_model initial_members]. rewrite Hoff. repeat split.
Qed.

(** X3: the constructor throws exactly when the transformations are
    enabled and throw on the graph. *)
Theorem constructor_fails_iff model plugin cfg flag log :
  (exists e, snd (CompiledModel_ctor model plugin cfg flag log) = inl e)
  <-> (disable_transformations cfg = false
       /\ exists cause, transform model = inl cause).
Proof.
  destruct (disable_transformations cfg) eqn:Hflag.
  - rewrite (constructor_verbatim model plugin cfg flag log Hflag).
    split; [intros [e [=]] | intros [[=] _]].
  - rewrite (constructor_enabled _ _ _ _ _ Hflag). cbn [snd].
    destruct (transform model) as [cause|graph]; split.
    + intros _. split; [reflexivity|]. now exists cause.
    + intros _. destruct cause as [[] what|]; eauto.
    + intros [e [=]].
    + intros [_ [cause [=]]].
Qed.

(** X4: the constructor calls the transformations once when they are
    enabled and not at all otherwise, whether or not they succeed and
    whatever [loaded_from_cache] says: a model marked as loaded from the
    cache is transformed like a fresh one. *)
Theorem constructor_calls_transformations_once model plugin cfg flag log :
  fst (CompiledModel_ctor model plugin cfg flag log)
  = if disable_transformations cfg
    then log
    else log ++ [transform_model_called model].
Proof.
  destruct (disable_transformations cfg) eqn:Hflag.
  - now rewrite (constructor_verbatim model plugin cfg flag log Hflag).
  - now rewrite (constructor_enabled _ _ _ _ _ Hflag).
Qed.

(** X5: the text of the exception that leaves the constructor.  The text
    of a legacy exception is passed on unchanged; the text of any other
    standard exception -- an [ov::Exception] of the transformations
    included -- is prefixed; an unknown exception gives a fixed text. *)
Theorem constructor_diagnostics model plugin cfg flag log cause :
  disable_transformations cfg = false ->
  transform model = inl cause ->
  exists message,
    snd (CompiledModel_ctor model plugin cfg flag log)
      = inl (std_exception ov_Exception message)
    /\ (forall what,
          cause = std_exception InferenceEngine_Exception what ->
          message = what)
    /\ (forall c what,
          cause = std_exception c what ->
          c <> InferenceEngine_Exception ->
          message = "Standard exception from compilation library: " +:+ what)
    /\ (cause = non_std_exception ->
          message = "Generic exception is thrown").
Proof.
  intros Hon Hfail.
  rewrite (constructor_enabled _ _ _ _ _ Hon), Hfail. cbn [snd].
  destruct cause as [[] what|]; eexists; (split; [reflexivity|]);
    repeat split; intros; congruence.
Qed.

End ConstructorFacts.

(** ** More on [get_property] *)

Section MorePropertyFacts.
Context {names : PropertyNames} {runtime : Runtime}.

Lemma append_cancel_l (prefix a b : string) :
  prefix +:+ a = prefix +:+ b -> a = b.
Proof.
  induction prefix as [|c prefix IH]; simpl; [tauto|].
  intros [= H]. now apply IH.
Qed.

Lemma to_string_inj (x y : Z) : to_string x = to_string y -> x = y.
Proof.
  intros H. pose proof (to_string_decimal x) as Hx.
  rewrite H, to_string_decimal in Hx. congruence.
Qed.

Lemma own_name_answered (this : CompiledModel) (name : string) :
  In name own_names -> exists value, get_property this name = inr value.
Proof.
  intros Hin. unfold get_property.
  repeat match goal with
         | |- context [String.eqb ?a name] =>
             destruct (String.eqb_spec a name) as [_|?]; [eauto|]
         end.
  exfalso. simpl in Hin. intuition congruence.
Qed.

(** X6: [get_property] never throws for a name it answers itself -- the
    two legacy metrics and the five read-only properties -- whatever the
    configuration holds, and whether or not the names are distinct. *)
Theorem get_property_own_names_answered (this : CompiledModel) (name : string) :
  In name own_names ->
  exists value, get_property this name = inr value.
Proof. apply own_name_answered. Qed.

(** X7: an exception that leaves [get_property] was thrown by
    [Configuration::Get] for the same name, and the name is none of those
    [get_property] answers itself. *)
Theorem get_property_failure_from_configuration
    (this : CompiledModel) (name : string) (e : exception) :
  get_property this name = inl e ->
  ~ In name own_names /\ Configuration_Get (m_cfg this) name = inl e.
Proof.
  intros Hfail.
  assert (Hout : ~ In name own_names).
  { intros Hin.
    destruct (own_name_answered this name Hin) as [v Hv].
    congruence. }
  split; [exact Hout|].
  now rewrite <- (get_property_delegates this name Hout).
Qed.

(** X8: [model_name] is the friendly name of the graph the model holds,
    the one [get_runtime_model] returns. *)
Theorem get_property_model_name (this : CompiledModel) :
  NoDup own_names ->
  get_property this ov_model_name
    = inr (Any_string (get_friendly_name (get_runtime_model this))).
Proof.
  intros Hdup. decide_names Hdup. reflexivity.
Qed.

(** X9: the string vector built from property names has their length and
    keeps their order: its [i]-th entry is the name of the [i]-th
    property, mutability dropped. *)
Theorem to_string_vector_entries (properties : list PropertyName) :
  length (to_string_vector properties) = length properties
  /\ forall (i : nat) (property : PropertyName),
       properties !! i = Some property ->
       to_string_vector properties !! i = Some (property_name property).
Proof.
  rewrite to_string_vector_map. split.
  - apply length_map.
  - intros i property Hi.
    change (map property_name properties) with (property_name <$> properties).
    now rewrite list_lookup_fmap, Hi.
Qed.

(** X10: the new and the legacy listings agree.  Every property
    [supported_properties] lists as read-only is among SUPPORTED_METRICS,
    and every one it lists as read-write is among SUPPORTED_CONFIG_KEYS. *)
Theorem supported_properties_within_legacy_lists (this : CompiledModel) :
  NoDup own_names ->
  exists listed metrics keys,
    get_property this ov_supported_properties = inr (Any_properties listed)
    /\ get_property this METRIC_KEY_SUPPORTED_METRICS = inr (Any_strings metrics)
    /\ get_property this METRIC_KEY_SUPPORTED_CONFIG_KEYS = inr (Any_strings keys)
    /\ forall property,
         In property listed ->
         match mutability property with
         | RO => In (property_name property) metrics
         | RW => In (property_name property) keys
         end.
Proof.
  intros Hdup.
  exists (default_ro_properties ++ default_rw_properties),
         (map property_name default_ro_properties
            ++ [METRIC_KEY_SUPPORTED_METRICS; METRIC_KEY_SUPPORTED_CONFIG_KEYS]),
         (map property_name default_rw_properties ++ streamExecutorConfigKeys).
  split; [|split; [|split]].
  - pose proof Hdup as Hdup'. decide_names Hdup'. reflexivity.
  - pose proof Hdup as Hdup'. decide_names Hdup'.
    now rewrite to_string_vector_map.
  - pose proof Hdup as Hdup'. decide_names Hdup'.
    rewrite to_string_vector_map, emplace_back_all, map_app, map_map.
    simpl. now rewrite map_id.
  - intros property Hin. apply in_app_or in Hin as [Hin|Hin].
    + assert (Hro : mutability property = RO)
        by (simpl in Hin; intuition (subst; reflexivity)).
      rewrite Hro. apply in_or_app. left. now apply in_map.
    + assert (Hrw : mutability property = RW)
        by (simpl in Hin; intuition (subst; reflexivity)).
      rewrite Hrw. apply in_or_app. left. now apply in_map.
Qed.

(** X11: [optimal_number_of_infer_requests] is the configured stream count
    converted to [unsigned int]: a value from [0] to [2^32 - 1] congruent
    to the count modulo [2^32], so a negative count reads as a large
    one. *)
Theorem optimal_number_of_infer_requests_wraps (this : CompiledModel) :
  NoDup own_names ->
  exists n,
    get_property this ov_optimal_number_of_infer_requests = inr (Any_uint32 n)
    /\ 0 <= n < 2 ^ 32
    /\ n = _streams (streams_executor_config (m_cfg this)) mod 2 ^ 32.
Proof.
  intros Hdup.
  exists (to_unsigned_int (_streams (streams_executor_config (m_cfg this)))).
  split; [decide_names Hdup; reflexivity|].
  unfold to_unsigned_int. split; [|reflexivity].
  apply Z.mod_pos_bound. lia.
Qed.

(** X12: the entry of [execution_devices] tells the device ids of one
    plugin apart: two models of the same plugin that answer alike are
    configured with the same device id. *)
Theorem execution_devices_determines_device_id (a b : CompiledModel) :
  NoDup own_names ->
  get_plugin a = get_plugin b ->
  get_property a ov_execution_devices = get_property b ov_execution_devices ->
  device_id (m_cfg a) = device_id (m_cfg b).
Proof.
  intros Hdup Hplugin.
  assert (Hentry : forall this : CompiledModel,
             get_property this ov_execution_devices
             = inr (Any_strings
                      [get_device_name (get_plugin this) +:+ "." +:+
                       to_string (device_id (m_cfg this))])).
  { intros this. decide_names Hdup. reflexivity. }
  rewrite !Hentry, Hplugin. intros [= H].
  apply to_string_inj.
  now apply append_cancel_l in H; apply append_cancel_l in H.
Qed.

End MorePropertyFacts.

(** ** More on [export_model] *)

Section MoreExportFacts.
Context {runtime : Runtime}.

Lemma export_model_whole host this sink :
  size (fst (Serialize (m_model this))) < 2 ^ 64 ->
  size (snd (Serialize (m_model this))) < 2 ^ 64 ->
  export_model host this sink
  = sink
      ++ uint64_bytes host (size (fst (Serialize (m_model this))))
      ++ fst (Serialize (m_model this))
      ++ uint64_bytes host (size (snd (Serialize (m_model this))))
      ++ snd (Serialize (m_model this)).
Proof.
  intros Hs Hc. rewrite export_model_unfold. cbv zeta.
  rewrite !to_uint64_small by (split; [apply size_nonneg | assumption]).
  unfold size. now rewrite !Nat2Z.id, !firstn_all.
Qed.

(** A length field determines the length it holds. *)
Lemma uint64_bytes_inj host (x y : Z) :
  0 <= x < 2 ^ 64 -> 0 <= y < 2 ^ 64 ->
  uint64_bytes host x = uint64_bytes host y -> x = y.
Proof.
  intros Hx Hy H. apply (f_equal (uint64_value host)) in H.
  now rewrite !uint64_value_bytes, !to_uint64_small in H.
Qed.

(** A length field and its payload can be split off the front of a
    stream in one way only. *)
Lemma section_inj host (p q rest rest' : list byte) :
  size p < 2 ^ 64 -> size q < 2 ^ 64 ->
  uint64_bytes host (size p) ++ p ++ rest
    = uint64_bytes host (size q) ++ q ++ rest' ->
  p = q /\ rest = rest'.
Proof.
  intros Hp Hq H.
  apply app_inj_1 in H as [Hlen H];
    [|now rewrite !length_uint64_bytes].
  apply uint64_bytes_inj in Hlen;
    [|split; [apply size_nonneg | assumption]..].
  apply app_inj_1 in H; [exact H|].
  unfold size in Hlen. lia.
Qed.

(** X14: the artifact is sixteen bytes longer than the two payloads
    together. *)
Theorem export_model_length host (this : CompiledModel) (sink : ostream) :
  size (fst (Serialize (m_model this))) < 2 ^ 64 ->
  size (snd (Serialize (m_model this))) < 2 ^ 64 ->
  size (export_model host this sink)
  = size sink + 16
    + size (fst (Serialize (m_model this)))
    + size (snd (Serialize (m_model this))).
Proof.
  intros Hs Hc. rewrite (export_model_whole host this sink Hs Hc).
  unfold size. rewrite !length_app, !length_uint64_bytes.
  unfold sizeof_uint64. lia.
Qed.

(** X15: the artifact records the two payloads of the graph and nothing
    else: two models export the same bytes exactly when their graphs
    serialize alike, whatever their configurations, plugins and flags. *)
Theorem export_model_determines_payloads host (a b : CompiledModel) :
  size (fst (Serialize (m_model a))) < 2 ^ 64 ->
  size (snd (Serialize (m_model a))) < 2 ^ 64 ->
  size (fst (Serialize (m_model b))) < 2 ^ 64 ->
  size (snd (Serialize (m_model b))) < 2 ^ 64 ->
  export_model host a [] = export_model host b []
  <-> Serialize (m_model a) = Serialize (m_model b).
Proof.
  intros Has Hac Hbs Hbc.
  rewrite (export_model_whole host a [] Has Hac),
          (export_model_whole host b [] Hbs Hbc).
  cbn [app]. split.
  - intros H.
    apply section_inj in H as [Hxml H]; [|assumption..].
    apply app_inj_1 in H as [_ Hbin];
      [|now rewrite !length_uint64_bytes].
    rewrite (surjective_pairing (Serialize (m_model a))),
            (surjective_pairing (Serialize (m_model b))).
    congruence.
  - intros H. now rewrite H.
Qed.

(** X16: a graph without constants.  The second length field is eight
    zero bytes in either byte order and the artifact ends with it. *)
Theorem export_model_without_constants host (this : CompiledModel)
    (sink : ostream) (structure : list byte) :
  Serialize (m_model this) = (structure, []) ->
  size structure < 2 ^ 64 ->
  export_model host this sink
  = sink ++ uint64_bytes host (size structure) ++ structure
         ++ [x00; x00; x00; x00; x00; x00; x00; x00].
Proof.
  intros Hser Hs.
  rewrite export_model_whole; rewrite Hser; cbn [fst snd];
    [|assumption|reflexivity].
  rewrite app_nil_r. repeat f_equal. now destruct host.
Qed.

End MoreExportFacts.

(** ** The further properties at the sample instances *)

Section MoreSamples.

#[local] Existing Instance openvino_names.
#[local] Existing Instance byte_runtime.

Lemma sample_names_distinct : NoDup own_names.
Proof. apply (bool_decide_unpack _). vm_compute. exact I. Qed.

Lemma constructor_keeps_transformed_graph_witness :
  let model := byte_graph [x05] [x06] in
  disable_transformations (sample_config false) = false
  /\ transform model = inr model
  /\ exists this,
       CompiledModel_ctor model template_plugin (sample_config false) true []
         = ([] ++ [transform_model_called model], inr this)
       /\ get_runtime_model this = model
       /\ get_plugin this = template_plugin
       /\ m_cfg this = sample_config false
       /\ m_loaded_from_cache this = true.
Proof.
  intros model.
  assert (Hon : disable_transformations (sample_config false) = false)
    by reflexivity.
  assert (Hok : transform model = inr model) by reflexivity.
  split; [exact Hon|split; [exact Hok|]].
  exact (constructor_keeps_transformed_graph
           model template_plugin (sample_config false) true [] model Hon Hok).
Defined.

Lemma constructor_without_transformations_witness :
  let model := byte_graph [x04] [] in
  disable_transformations (sample_config true) = true
  /\ transform model = inl non_std_exception
  /\ exists this,
       CompiledModel_ctor model template_plugin (sample_config true) false []
         = ([], inr this)
       /\ get_runtime_model this = model
       /\ get_plugin this = template_plugin
       /\ m_cfg this = sample_config true
       /\ m_loaded_from_cache this = false.
Proof.
  intros model.
  assert (Hoff : disable_transformations (sample_config true) = true)
    by reflexivity.
  split; [exact Hoff|split; [reflexivity|]].
  exact (constructor_without_transformations
           model template_plugin (sample_config true) false [] Hoff).
Defined.

Lemma constructor_diagnostics_witness :
  let model := byte_graph [x03] [] in
  let cause := std_exception ov_Exception "check failed" in
  disable_transformations (sample_config false) = false
  /\ transform model = inl cause
  /\ snd (CompiledModel_ctor model template_plugin (sample_config false) false [])
     = inl (std_exception ov_Exception
              "Standard exception from compilation library: check failed").
Proof.
  intros model cause.
  assert (Hon : disable_transformations (sample_config false) = false)
    by reflexivity.
  assert (Hfail : transform model = inl cause) by reflexivity.
  split; [exact Hon|split; [exact Hfail|]].
  destruct (constructor_diagnostics
              model template_plugin (sample_config false) false [] cause Hon Hfail)
    as (message & Hthrown & _ & Hstd & _).
  rewrite Hthrown, (Hstd ov_Exception "check failed" eq_refl); [reflexivity|].
  discriminate.
Defined.

Lemma constructor_fails_iff_witness :
  exists e,
    snd (CompiledModel_ctor (byte_graph [x02] []) template_plugin
           (sample_config false) false [])
    = inl e.
Proof.
  apply (proj2 (constructor_fails_iff (byte_graph [x02] []) template_plugin
                  (sample_config false) false [])).
  split; [reflexivity|]. eexists. reflexivity.
Defined.

Lemma to_string_vector_entries_witness :
  default_rw_properties !! 1%nat = Some (mkPropertyName "PERF_COUNT" RW)
  /\ to_string_vector default_rw_properties !! 1%nat = Some "PERF_COUNT".
Proof.
  assert (Hat : default_rw_properties !! 1%nat
                = Some (mkPropertyName "PERF_COUNT" RW)) by reflexivity.
  split; [exact Hat|].
  exact (proj2 (to_string_vector_entries default_rw_properties) 1%nat _ Hat).
Defined.

Lemma get_property_own_names_answered_witness :
  In "LOADED_FROM_CACHE" own_names
  /\ exists value,
       get_property (sample_model [x05] [x06]) "LOADED_FROM_CACHE" = inr value.
Proof.
  assert (Hin : In "LOADED_FROM_CACHE" own_names) by (simpl; tauto).
  split; [exact Hin|].
  exact (get_property_own_names_answered
           (sample_model [x05] [x06]) "LOADED_FROM_CACHE" Hin).
Defined.

Lemma get_property_failure_from_configuration_witness :
  let this := sample_model [x05] [x06] in
  let e := std_exception NotFound "nonexistent_key_xyz" in
  get_property this "nonexistent_key_xyz" = inl e
  /\ ~ In "nonexistent_key_xyz" own_names
  /\ Configuration_Get (m_cfg this) "nonexistent_key_xyz" = inl e.
Proof.
  intros this e.
  assert (Hfail : get_property this "nonexistent_key_xyz" = inl e)
    by (vm_compute; reflexivity).
  split; [exact Hfail|].
  exact (get_property_failure_from_configuration
           this "nonexistent_key_xyz" e Hfail).
Defined.

Lemma get_property_model_name_witness :
  NoDup own_names
  /\ get_property (sample_model [x05] [x06]) "NETWORK_NAME"
     = inr (Any_string "bytes").
Proof.
  split; [exact sample_names_distinct|].
  exact (get_property_model_name (sample_model [x05] [x06])
           sample_names_distinct).
Defined.

Lemma supported_properties_within_legacy_lists_witness :
  NoDup own_names
  /\ exists listed metrics keys,
       get_property (sample_model [x05] [x06]) "SUPPORTED_PROPERTIES"
         = inr (Any_properties listed)
       /\ get_property (sample_model [x05] [x06]) "SUPPORTED_METRICS"
          = inr (Any_strings metrics)
       /\ get_property (sample_model [x05] [x06]) "SUPPORTED_CONFIG_KEYS"
          = inr (Any_strings keys)
       /\ forall property,
            In property listed ->
            match mutability property with
            | RO => In (property_name property) metrics
            | RW => In (property_name property) keys
            end.
Proof.
  split; [exact sample_names_distinct|].
  exact (supported_properties_within_legacy_lists
           (sample_model [x05] [x06]) sample_names_distinct).
Defined.

Lemma optimal_number_of_infer_requests_wraps_witness :
  let this := initial_members (byte_graph [x05] [x06]) template_plugin
                {| device_id := 0;
                   disable_transformations := true;
                   streams_executor_config := {| _streams := -1 |};
                   enable_profiling := false;
                   perf_mode := "LATENCY" |} false in
  NoDup own_names
  /\ get_property this "OPTIMAL_NUMBER_OF_INFER_REQUESTS"
     = inr (Any_uint32 4294967295).
Proof.
  intros this.
  split; [exact sample_names_distinct|].
  destruct (optimal_number_of_infer_requests_wraps this sample_names_distinct)
    as (n & Hn & _ & Hmod).
  rewrite Hmod in Hn. exact Hn.
Defined.

Lemma execution_devices_determines_device_id_witness :
  let a := sample_model [x05] [x06] in
  let b := initial_members (byte_graph [x07] []) template_plugin
             (sample_config true) true in
  NoDup own_names
  /\ get_plugin a = get_plugin b
  /\ get_property a "EXECUTION_DEVICES" = get_property b "EXECUTION_DEVICES"
  /\ device_id (m_cfg a) = device_id (m_cfg b).
Proof.
  intros a b.
  assert (Hplugin : get_plugin a = get_plugin b) by reflexivity.
  assert (Hsame : get_property a ov_execution_devices
                  = get_property b ov_execution_devices)
    by (vm_compute; reflexivity).
  split; [exact sample_names_distinct|].
  split; [exact Hplugin|split; [exact Hsame|]].
  exact (execution_devices_determines_device_id
           a b sample_names_distinct Hplugin Hsame).
Defined.

Lemma export_model_length_witness :
  let this := sample_model [x05; x07] [x06] in
  size (fst (Serialize (m_model this))) < 2 ^ 64
  /\ size (snd (Serialize (m_model this))) < 2 ^ 64
  /\ size (export_model BigEndian this [xff]) = 1 + 16 + 2 + 1.
Proof.
  intros this.
  assert (Hs : size (fst (Serialize (m_model this))) < 2 ^ 64) by reflexivity.
  assert (Hc : size (snd (Serialize (m_model this))) < 2 ^ 64) by reflexivity.
  split; [exact Hs|split; [exact Hc|]].
  exact (export_model_length BigEndian this [xff] Hs Hc).
Defined.

Lemma export_model_determines_payloads_witness :
  let a := sample_model [x05; x07] [x06] in
  let b := initial_members (byte_graph [x05; x07] [x06]) template_plugin
             (sample_config true) true in
  size (fst (Serialize (m_model a))) < 2 ^ 64
  /\ size (snd (Serialize (m_model a))) < 2 ^ 64
  /\ size (fst (Serialize (m_model b))) < 2 ^ 64
  /\ size (snd (Serialize (m_model b))) < 2 ^ 64
  /\ export_model LittleEndian a [] = export_model LittleEndian b [].
Proof.
  intros a b.
  assert (Has : size (fst (Serialize (m_model a))) < 2 ^ 64) by reflexivity.
  assert (Hac : size (snd (Serialize (m_model a))) < 2 ^ 64) by reflexivity.
  assert (Hbs : size (fst (Serialize (m_model b))) < 2 ^ 64) by reflexivity.
  assert (Hbc : size (snd (Serialize (m_model b))) < 2 ^ 64) by reflexivity.
  repeat (split; [assumption|]).
  exact (proj2 (export_model_determines_payloads LittleEndian a b
                  Has Hac Hbs Hbc) eq_refl).
Defined.

Lemma export_model_without_constants_witness :
  let this := sample_model [x05; x07] [] in
  Serialize (m_model this) = ([x05; x07], [])
  /\ size [x05; x07] < 2 ^ 64
  /\ export_model LittleEndian this []
     = [x02; x00; x00; x00; x00; x00; x00; x00; x05; x07;
        x00; x00; x00; x00; x00; x00; x00; x00].
Proof.
  intros this.
  assert (Hser : Serialize (m_model this) = ([x05; x07], [])) by reflexivity.
  assert (Hs : size [x05; x07] < 2 ^ 64) by reflexivity.
  split; [exact Hser|split; [exact Hs|]].
  exact (export_model_without_constants LittleEndian this [] [x05; x07] Hser Hs).
Defined.

End MoreSamples.
